(** * bl: the packaging descriptor [setup.py]

    The repository ships one source file, [setup.py]: three imports and
    a single call [setup(...)] with keyword arguments.  This development
    embeds that file twice, the way the file itself exists twice for a
    Python tool chain:

    - as text ([setup_py_text], the nineteen physical lines), and
    - as an abstract syntax tree ([setup_py], the statements with the
      line spans Python's [ast] module reports),

    gives the tree a small evaluator (a state and error monad over the
    log of [setuptools.setup] calls and the files on disk), and proves
    what the descriptor declares. *)

From Stdlib Require Import String Ascii List Bool Arith Lia.
From stdpp Require Import base option strings list gmap.

Set Warnings "-register-all".

Local Open Scope string_scope.
Local Open Scope list_scope.

(** ** Syntax *)

Module Ast.

(** Literals that occur in expressions. *)
Inductive constant : Type :=
| CNone
| CBool (b : bool)
| CStr (s : string).

(** Expressions, named after the nodes of Python's [ast]. *)
Inductive expr : Type :=
| EConstant (c : constant)
| EName (id : string)
| EAttribute (value : expr) (attr : string)
| EList (elts : list expr)
| EDict (items : list (expr * expr))
| ECall (func : expr) (args : list expr) (keywords : list (string * expr)).

(** Statements.  The compound forms carry their bodies so that a
    module can be searched for them at any depth. *)
Inductive stmt : Type :=
| SImport (names : list string)
| SImportFrom (module : string) (names : list string)
| SExpr (value : expr)
| SAssign (target : string) (value : expr)
| SIf (test : expr) (body orelse : list stmt)
| SWhile (test : expr) (body : list stmt)
| SFor (target : string) (iter : expr) (body : list stmt)
| SWith (context : expr) (body : list stmt)
| STry (body handler : list stmt)
| SFunctionDef (name : string) (params : list string) (body : list stmt)
| SAsyncFunctionDef (name : string) (params : list string) (body : list stmt)
| SClassDef (name : string) (body : list stmt).

(** A top-level statement with its first and last line (1-based,
    inclusive), as [lineno] and [end_lineno] give them. *)
Record located : Type := Located {
  node : stmt;
  lineno : nat;
  end_lineno : nat
}.

Definition module_body : Type := list located.

End Ast.
Export Ast.

(** ** The source *)

(** The double quote character, for the lines that contain one. *)
Definition dq : string := String (ascii_of_nat 34) EmptyString.

(** [setup.py], line by line.  The last line has no newline after it. *)
Definition setup_py_text : list string :=
  [ "import io"
  ; "import re"
  ; "from setuptools import setup"
  ; EmptyString
  ; EmptyString
  ; "setup("
  ; "    name='bl',"
  ; "    version='1.0',"
  ; "    include_package_data=True,"
  ; "    license='GPLv3',"
  ; "    author='Carlo De Pieri',"
  ; "    description='An utility to manage my bluetooth headsets and quickly fix them when they do not connect',"
  ; "    scripts=[" +:+ dq +:+ "bl" +:+ dq +:+ "],"
  ; "    install_requires=["
  ; "        " +:+ dq +:+ "appdirs>=1.4.4" +:+ dq +:+ ","
  ; "        " +:+ dq +:+ "pexpect>=4.8.0" +:+ dq
  ; "    ],"
  ; "    extras_require={}"
  ; ")" ].

Definition str (s : string) : expr := EConstant (CStr s).

(** The keyword arguments of the call on lines 6 to 19, in order. *)
Definition setup_keywords : list (string * expr) :=
  [ ("name", str "bl")
  ; ("version", str "1.0")
  ; ("include_package_data", EConstant (CBool true))
  ; ("license", str "GPLv3")
  ; ("author", str "Carlo De Pieri")
  ; ("description",
     str "An utility to manage my bluetooth headsets and quickly fix them when they do not connect")
  ; ("scripts", EList [str "bl"])
  ; ("install_requires", EList [str "appdirs>=1.4.4"; str "pexpect>=4.8.0"])
  ; ("extras_require", EDict []) ].

Definition setup_call : expr := ECall (EName "setup") [] setup_keywords.

(** The module: four statements. *)
Definition setup_py : module_body :=
  [ Located (SImport ["io"]) 1 1
  ; Located (SImport ["re"]) 2 2
  ; Located (SImportFrom "setuptools" ["setup"]) 3 3
  ; Located (SExpr setup_call) 6 19 ].

(** ** Values, the world, and the evaluation monad *)

Inductive value : Type :=
| VNone
| VBool (b : bool)
| VStr (s : string)
| VList (elts : list value)
| VDict (items : list (value * value))
| VModule (name : string)
| VFunc (qualname : string).

(** One recorded call: positional and keyword arguments. *)
Record call : Type := Call {
  call_args : list value;
  call_kwargs : list (string * value)
}.

(** What the interpreter finds around the script: the importable
    modules with their attributes ([sys.modules] after import), and the
    behaviour of every other library function, which may consult the
    environment, match regular expressions, and read or change the
    files on disk (path to contents). *)
Record World : Type := {
  sys_modules : gmap string (gmap string value);
  extern : string -> list value -> list (string * value) ->
           gmap string string -> option (value * gmap string string)
}.

Inductive error : Type :=
| NameError (id : string)
| ModuleNotFoundError (name : string)
| ImportError (module name : string)
| AttributeError (attr : string)
| TypeError
| Unsupported.

Inductive result (A : Type) : Type :=
| Ok (a : A)
| Err (e : error).
Arguments Ok {A} a.
Arguments Err {A} e.

(** The state a script acts on: the [setup] calls made so far, oldest
    first, and the files on disk. *)
Record state : Type := State {
  calls : list call;
  files : gmap string string
}.

Definition M (A : Type) : Type := state -> result (A * state).

Definition ret {A} (a : A) : M A := fun st => Ok (a, st).
Definition fail {A} (e : error) : M A := fun _ => Err e.
Definition bind {A B} (k : A -> M B) (m : M A) : M B :=
  fun st => match m st with
            | Ok (a, st') => k a st'
            | Err e => Err e
            end.
Definition record_call (c : call) : M unit :=
  fun st => Ok (tt, State (calls st ++ [c]) (files st)).

#[global] Instance M_ret : MRet M := @ret.
#[global] Instance M_bind : MBind M := @bind.

Definition const_value (c : constant) : value :=
  match c with
  | CNone => VNone
  | CBool b => VBool b
  | CStr s => VStr s
  end.

(** The function object that [from setuptools import setup] binds. *)
Definition setup_qualname : string := "setuptools.setup".

Section Evaluator.
Variable w : World.

Definition getattr (v : value) (attr : string) : M value :=
  match v with
  | VModule m =>
      match sys_modules w !! m ≫= (fun attrs => attrs !! attr) with
      | Some a => ret a
      | None => fail (AttributeError attr)
      end
  | _ => fail (AttributeError attr)
  end.

(** Calling [setuptools.setup] records the arguments and returns
    [None]; any other function is answered by the world. *)
Definition apply (f : value) (args : list value)
    (kwargs : list (string * value)) : M value :=
  match f with
  | VFunc q =>
      if String.eqb q setup_qualname
      then _ ← record_call (Call args kwargs); ret VNone
      else fun st =>
             match extern w q args kwargs (files st) with
             | Some (v, fs) => Ok (v, State (calls st) fs)
             | None => Err TypeError
             end
  | _ => fail TypeError
  end.

(** Operands are evaluated left to right: the callee, then the
    positional arguments, then the keyword arguments. *)
Fixpoint eval (env : gmap string value) (e : expr) {struct e} : M value :=
  match e with
  | EConstant c => ret (const_value c)
  | EName id =>
      match env !! id with
      | Some v => ret v
      | None => fail (NameError id)
      end
  | EAttribute e' attr => v ← eval env e'; getattr v attr
  | EList elts =>
      vs ← (fix go (es : list expr) : M (list value) :=
               match es with
               | [] => ret []
               | e' :: es' => v ← eval env e'; vs ← go es'; ret (v :: vs)
               end) elts;
      ret (VList vs)
  | EDict items =>
      kvs ← (fix go (es : list (expr * expr)) : M (list (value * value)) :=
                match es with
                | [] => ret []
                | (k, e') :: es' =>
                    kv ← eval env k; v ← eval env e';
                    kvs ← go es'; ret ((kv, v) :: kvs)
                end) items;
      ret (VDict kvs)
  | ECall func args keywords =>
      f ← eval env func;
      vs ← (fix go (es : list expr) : M (list value) :=
               match es with
               | [] => ret []
               | e' :: es' => v ← eval env e'; vs ← go es'; ret (v :: vs)
               end) args;
      kvs ← (fix go (es : list (string * expr)) : M (list (string * value)) :=
                match es with
                | [] => ret []
                | (k, e') :: es' =>
                    v ← eval env e'; kvs ← go es'; ret ((k, v) :: kvs)
                end) keywords;
      apply f vs kvs
  end.

(** [import a, b]: each module must exist; its name is bound to the
    module object. *)
Fixpoint import_names (names : list string) (env : gmap string value)
    : M (gmap string value) :=
  match names with
  | [] => ret env
  | n :: rest =>
      match sys_modules w !! n with
      | Some _ => import_names rest (<[n := VModule n]> env)
      | None => fail (ModuleNotFoundError n)
      end
  end.

(** [from m import a, b]: binds each name to the attribute of [m]. *)
Fixpoint import_from (m : string) (attrs : gmap string value)
    (names : list string) (env : gmap string value) : M (gmap string value) :=
  match names with
  | [] => ret env
  | n :: rest =>
      match attrs !! n with
      | Some v => import_from m attrs rest (<[n := v]> env)
      | None => fail (ImportError m n)
      end
  end.

(** Simple statements are executed; the evaluator does not cover the
    compound ones and reports them. *)
Definition exec (s : stmt) (env : gmap string value) : M (gmap string value) :=
  match s with
  | SImport names => import_names names env
  | SImportFrom m names =>
      match sys_modules w !! m with
      | Some attrs => import_from m attrs names env
      | None => fail (ModuleNotFoundError m)
      end
  | SExpr e => _ ← eval env e; ret env
  | SAssign x e => v ← eval env e; ret (<[x := v]> env)
  | _ => fail Unsupported
  end.

Fixpoint exec_body (body : module_body) (env : gmap string value)
    : M (gmap string value) :=
  match body with
  | [] => ret env
  | s :: rest => env' ← exec (node s) env; exec_body rest env'
  end.

(** Running a script from an empty namespace, on the files [fs]:
    the [setup] calls it made and the files it left, or the error
    that stopped it. *)
Definition run (body : module_body) (fs : gmap string string)
    : result (list call * gmap string string) :=
  match exec_body body ∅ (State [] fs) with
  | Ok (_, st) => Ok (calls st, files st)
  | Err e => Err e
  end.

(** The calls alone. *)
Definition metadata (body : module_body) (fs : gmap string string)
    : result (list call) :=
  match run body fs with
  | Ok (cs, _) => Ok cs
  | Err e => Err e
  end.

(** [body] declares the metadata [c]: on any files, it makes the one
    call [c] and leaves the files as they were. *)
Definition declares (body : module_body) (c : call) : Prop :=
  forall fs : gmap string string, run body fs = Ok ([c], fs).

End Evaluator.

(** ** Reading the recorded metadata *)

Fixpoint assoc {A} (k : string) (l : list (string * A)) : option A :=
  match l with
  | [] => None
  | (k', v) :: rest => if String.eqb k k' then Some v else assoc k rest
  end.

Definition kwarg (k : string) (c : call) : option value :=
  assoc k (call_kwargs c).

Definition as_str (v : value) : option string :=
  match v with VStr s => Some s | _ => None end.

Definition as_strs (v : value) : option (list string) :=
  match v with VList vs => mapM as_str vs | _ => None end.

(** A list-valued field: an absent keyword means the empty list, a
    value that is not a list of strings is rejected. *)
Definition str_list_field (k : string) (c : call) : option (list string) :=
  match kwarg k c with
  | None => Some []
  | Some v => as_strs v
  end.

Definition scripts : call -> option (list string) := str_list_field "scripts".
Definition install_requires : call -> option (list string) :=
  str_list_field "install_requires".

(** The world every claim below quantifies over: [setuptools] exports
    its [setup] function, and the two standard modules exist. *)
Definition provides_setuptools (w : World) : Prop :=
  exists attrs, sys_modules w !! "setuptools" = Some attrs
                /\ attrs !! "setup" = Some (VFunc setup_qualname).

Definition provides_stdlib (w : World) : Prop :=
  is_Some (sys_modules w !! "io") /\ is_Some (sys_modules w !! "re").

(** A concrete world, used to run the script. *)
Definition sample_world : World :=
  {| sys_modules :=
       <["io" := {["open" := VFunc "io.open"]}]>
         (<["re" := {["sub" := VFunc "re.sub"]}]>
            {["setuptools" := {["setup" := VFunc setup_qualname]}]});
     extern := fun _ _ _ _ => None |}.

(** The metadata the call on lines 6 to 19 hands to [setup]. *)
Definition bl_metadata : call :=
  Call []
    [ ("name", VStr "bl")
    ; ("version", VStr "1.0")
    ; ("include_package_data", VBool true)
    ; ("license", VStr "GPLv3")
    ; ("author", VStr "Carlo De Pieri")
    ; ("description",
       VStr "An utility to manage my bluetooth headsets and quickly fix them when they do not connect")
    ; ("scripts", VList [VStr "bl"])
    ; ("install_requires", VList [VStr "appdirs>=1.4.4"; VStr "pexpect>=4.8.0"])
    ; ("extras_require", VDict []) ].

(** ** What installation puts on the command path

    [setuptools] installs every file listed in [scripts] under its base
    name, and one launcher for each entry of the [console_scripts] and
    [gui_scripts] groups of [entry_points], named by the text before the
    equals sign. *)

Fixpoint basename_from (acc : string) (s : string) : string :=
  match s with
  | EmptyString => acc
  | String c rest =>
      if Ascii.eqb c "/" then basename_from rest rest else basename_from acc rest
  end.

Definition basename (s : string) : string := basename_from s s.

Fixpoint span (p : ascii -> bool) (s : string) : string * string :=
  match s with
  | EmptyString => (EmptyString, EmptyString)
  | String c rest =>
      if p c then let (a, b) := span p rest in (String c a, b)
      else (EmptyString, s)
  end.

Fixpoint lstrip (s : string) : string :=
  match s with
  | String c rest => if Ascii.is_space c then lstrip rest else s
  | EmptyString => EmptyString
  end.

Definition strip (s : string) : string :=
  String.rev (lstrip (String.rev (lstrip s))).

Definition entry_point_name (s : string) : string :=
  strip (fst (span (fun c => negb (Ascii.eqb c "=")) s)).

Fixpoint dict_get (k : string) (items : list (value * value)) : option value :=
  match items with
  | [] => None
  | (VStr k', v) :: rest => if String.eqb k k' then Some v else dict_get k rest
  | _ :: rest => dict_get k rest
  end.

Definition entry_point_group (g : string) (eps : list (value * value))
    : option (list string) :=
  match dict_get g eps with
  | None => Some []
  | Some v => map entry_point_name <$> as_strs v
  end.

Definition entry_point_commands (c : call) : option (list string) :=
  match kwarg "entry_points" c with
  | None => Some []
  | Some (VDict eps) =>
      cs ← entry_point_group "console_scripts" eps;
      gs ← entry_point_group "gui_scripts" eps;
      Some (cs ++ gs)
  | Some _ => None
  end.

Definition installed_executables (c : call) : option (list string) :=
  ss ← scripts c;
  es ← entry_point_commands c;
  Some (map basename ss ++ es).

(** ** Optional dependency groups *)

Fixpoint extras_of_items (items : list (value * value))
    : option (gmap string (list string)) :=
  match items with
  | [] => Some ∅
  | (VStr k, v) :: rest =>
      reqs ← as_strs v;
      m ← extras_of_items rest;
      Some (<[k := reqs]> m)
  | _ :: _ => None
  end.

Definition extras_require (c : call) : option (gmap string (list string)) :=
  match kwarg "extras_require" c with
  | None => Some ∅
  | Some (VDict items) => extras_of_items items
  | Some _ => None
  end.

(** The requirements of [pkg[e1,e2,...]]: the unconditional ones, then
    those of each selected group that exists. *)
Definition requirements_for (selected : list string) (c : call)
    : option (list string) :=
  base ← install_requires c;
  extras ← extras_require c;
  Some (base ++ concat (omap (fun e => extras !! e) selected)).

(** ** Requirement specifiers

    The grammar of the strings in [install_requires], for release
    versions: a distribution name followed by comma-separated clauses,
    each a comparison operator and a dotted version. *)

Inductive cmp_op : Type :=
| OpGe | OpLe | OpEq | OpNe | OpGt | OpLt | OpCompatible | OpArbitrary.

Record requirement : Type := Requirement {
  req_name : string;
  req_clauses : list (cmp_op * list nat)
}.

Definition is_name_char (c : ascii) : bool :=
  let n := nat_of_ascii c in
  ((48 <=? n)%nat && (n <=? 57)%nat) || ((65 <=? n)%nat && (n <=? 90)%nat)
  || ((97 <=? n)%nat && (n <=? 122)%nat)
  || Ascii.eqb c "-" || Ascii.eqb c "_" || Ascii.eqb c ".".

(** [split_on c s] cuts [s] at every [c]; the result is never empty. *)
Fixpoint split_on (sep : ascii) (s : string) : list string :=
  match s with
  | EmptyString => [EmptyString]
  | String c rest =>
      if Ascii.eqb c sep then EmptyString :: split_on sep rest
      else match split_on sep rest with
           | [] => [String c EmptyString]
           | x :: xs => String c x :: xs
           end
  end.

Fixpoint parse_digits (acc : nat) (s : string) : option nat :=
  match s with
  | EmptyString => Some acc
  | String c rest =>
      match Ascii.is_nat c with
      | Some d => parse_digits (10 * acc + d) rest
      | None => None
      end
  end.

Definition parse_nat (s : string) : option nat :=
  match s with
  | EmptyString => None
  | _ => parse_digits 0 s
  end.

Definition parse_version (s : string) : option (list nat) :=
  mapM parse_nat (split_on "." s).

(** Operators, longest spelling first. *)
Definition operators : list (string * cmp_op) :=
  [ ("===", OpArbitrary); ("==", OpEq); ("~=", OpCompatible); ("!=", OpNe)
  ; ("<=", OpLe); (">=", OpGe); ("<", OpLt); (">", OpGt) ].

Fixpoint strip_prefix (p s : string) : option string :=
  match p, s with
  | EmptyString, _ => Some s
  | String a p', String b s' =>
      if Ascii.eqb a b then strip_prefix p' s' else None
  | String _ _, EmptyString => None
  end.

Fixpoint parse_op (ops : list (string * cmp_op)) (s : string)
    : option (cmp_op * string) :=
  match ops with
  | [] => None
  | (sym, op) :: rest =>
      match strip_prefix sym s with
      | Some s' => Some (op, s')
      | None => parse_op rest s
      end
  end.

Definition parse_clause (s : string) : option (cmp_op * list nat) :=
  '(op, rest) ← parse_op operators (strip s);
  v ← parse_version (strip rest);
  Some (op, v).

Definition parse_requirement (s : string) : option requirement :=
  let (n, rest) := span is_name_char (strip s) in
  match n, strip rest with
  | EmptyString, _ => None
  | _, EmptyString => Some (Requirement n [])
  | _, tail => Requirement n <$> mapM parse_clause (split_on "," tail)
  end.

(** Release versions compare segment by segment, a missing segment
    counting as zero: 1.4 and 1.4.0 are the same version. *)
Fixpoint version_cmp (a b : list nat) {struct a} : comparison :=
  match a with
  | [] => if forallb (Nat.eqb 0) b then Eq else Lt
  | x :: a' =>
      match b with
      | [] => match x with 0 => version_cmp a' [] | S _ => Gt end
      | y :: b' =>
          match Nat.compare x y with
          | Eq => version_cmp a' b'
          | c => c
          end
      end
  end.

Definition version_le (a b : list nat) : Prop := version_cmp a b <> Gt.

Definition is_Lt (c : comparison) : bool := match c with Lt => true | _ => false end.
Definition is_Gt (c : comparison) : bool := match c with Gt => true | _ => false end.
Definition is_Eq (c : comparison) : bool := match c with Eq => true | _ => false end.

(** [v] meets one clause.  [~= b] asks for at least [b] with all but
    the last segment of [b] unchanged; [=== b] compares the spellings. *)
Definition meets (v : list nat) (cl : cmp_op * list nat) : bool :=
  let (op, b) := cl in
  match op with
  | OpGe => negb (is_Lt (version_cmp v b))
  | OpLe => negb (is_Gt (version_cmp v b))
  | OpEq => is_Eq (version_cmp v b)
  | OpNe => negb (is_Eq (version_cmp v b))
  | OpGt => is_Gt (version_cmp v b)
  | OpLt => is_Lt (version_cmp v b)
  | OpCompatible =>
      negb (is_Lt (version_cmp v b))
      && is_Eq (version_cmp (take (length b - 1) v) (take (length b - 1) b))
  | OpArbitrary => bool_decide (v = b)
  end.

Definition satisfies (v : list nat) (r : requirement) : bool :=
  forallb (meets v) (req_clauses r).

(** A requirement that only sets a minimum. *)
Definition lower_bound_only (r : requirement) : bool :=
  match req_clauses r with
  | [(OpGe, _)] => true
  | _ => false
  end.

(** ** Looking for logic in a module *)

Inductive construct : Type :=
| DefFunction | DefCoroutine | DefClass | DefBinding
| UseLoop | UseConditional | UseContext | UseHandler.

(** Every construct a statement defines, at any depth: functions,
    coroutines (the concurrency form of the language), classes (its
    data types), loops, conditionals, and name bindings (its state). *)
Fixpoint constructs (s : stmt) : list construct :=
  let block := fix block (body : list stmt) : list construct :=
    match body with
    | [] => []
    | s' :: rest => constructs s' ++ block rest
    end in
  match s with
  | SImport _ | SImportFrom _ _ | SExpr _ => []
  | SAssign _ _ => [DefBinding]
  | SIf _ body orelse => UseConditional :: block body ++ block orelse
  | SWhile _ body => UseLoop :: block body
  | SFor _ _ body => UseLoop :: DefBinding :: block body
  | SWith _ body => UseContext :: block body
  | STry body handler => UseHandler :: block body ++ block handler
  | SFunctionDef _ _ body => DefFunction :: block body
  | SAsyncFunctionDef _ _ body => DefCoroutine :: block body
  | SClassDef _ body => DefClass :: block body
  end.

Definition module_constructs (m : module_body) : list construct :=
  flat_map (fun s => constructs (node s)) m.

Definition is_import (s : stmt) : bool :=
  match s with
  | SImport _ | SImportFrom _ _ => true
  | _ => false
  end.

(** An expression statement that calls the name [setup]. *)
Definition is_setup_call (s : stmt) : bool :=
  match s with
  | SExpr (ECall (EName f) _ _) => String.eqb f "setup"
  | _ => false
  end.

Inductive line_kind : Type :=
| BlankLine | ImportLine | SetupLine | LogicLine | OtherLine.

Definition stmt_line_kind (s : stmt) : line_kind :=
  if is_import s then ImportLine
  else if is_setup_call s then SetupLine
  else LogicLine.

Definition covers (n : nat) (s : located) : bool :=
  (lineno s <=? n)%nat && (n <=? end_lineno s)%nat.

(** The kind of line [n] (1-based): that of the statement whose span
    holds it, else blank or other by its text. *)
Definition line_kind_at (m : module_body) (text : list string) (n : nat)
    : line_kind :=
  match find (covers n) m with
  | Some s => stmt_line_kind (node s)
  | None =>
      match text !! (n - 1)%nat with
      | Some l => match strip l with EmptyString => BlankLine | _ => OtherLine end
      | None => OtherLine
      end
  end.

Definition line_kinds (m : module_body) (text : list string) : list line_kind :=
  map (line_kind_at m text) (seq 1 (length text)).

Definition is_logic_line (k : line_kind) : bool :=
  match k with LogicLine | OtherLine => true | _ => false end.

(** *** The text against the tree *)

Definition is_ident_char (c : ascii) : bool :=
  let n := nat_of_ascii c in
  ((48 <=? n)%nat && (n <=? 57)%nat) || ((65 <=? n)%nat && (n <=? 90)%nat)
  || ((97 <=? n)%nat && (n <=? 122)%nat) || Ascii.eqb c "_".

(** The keyword a line opens with, when it reads [ident=...]. *)
Definition keyword_of_line (l : string) : option string :=
  match span is_ident_char (strip l) with
  | (String c k, String e _) =>
      if Ascii.eqb e "=" then Some (String c k) else None
  | _ => None
  end.

Definition lines_of (text : list string) (s : located) : list string :=
  take (S (end_lineno s) - lineno s) (drop (lineno s - 1) text).

Definition keywords_in_text (text : list string) (s : located) : list string :=
  omap keyword_of_line (lines_of text s).

(** How a simple statement opens in the text. *)
Definition opening (s : stmt) : option string :=
  match s with
  | SImport [n] => Some ("import " +:+ n)
  | SImportFrom m [n] => Some ("from " +:+ m +:+ " import " +:+ n)
  | SExpr (ECall (EName f) _ _) => Some (f +:+ "(")
  | _ => None
  end.

Definition opens_as_written (text : list string) (s : located) : bool :=
  match opening (node s), text !! (lineno s - 1)%nat with
  | Some o, Some l => bool_decide (o = l)
  | _, _ => false
  end.

(** ** Names a module reads *)

Fixpoint names_used (e : expr) : list string :=
  match e with
  | EConstant _ => []
  | EName id => [id]
  | EAttribute e' _ => names_used e'
  | EList elts => flat_map names_used elts
  | EDict items =>
      flat_map (fun kv => names_used (fst kv) ++ names_used (snd kv)) items
  | ECall f args kws =>
      names_used f ++ flat_map names_used args
      ++ flat_map (fun kv => names_used (snd kv)) kws
  end.

Fixpoint attributes_used (e : expr) : list string :=
  match e with
  | EConstant _ | EName _ => []
  | EAttribute e' a => attributes_used e' ++ [a]
  | EList elts => flat_map attributes_used elts
  | EDict items =>
      flat_map (fun kv => attributes_used (fst kv) ++ attributes_used (snd kv)) items
  | ECall f args kws =>
      attributes_used f ++ flat_map attributes_used args
      ++ flat_map (fun kv => attributes_used (snd kv)) kws
  end.

(** The callee of every call, outermost first. *)
Fixpoint callees (e : expr) : list expr :=
  match e with
  | EConstant _ | EName _ => []
  | EAttribute e' _ => callees e'
  | EList elts => flat_map callees elts
  | EDict items => flat_map (fun kv => callees (fst kv) ++ callees (snd kv)) items
  | ECall f args kws =>
      f :: callees f ++ flat_map callees args
      ++ flat_map (fun kv => callees (snd kv)) kws
  end.

(** The expressions of a statement, bodies included. *)
Fixpoint stmt_exprs (s : stmt) : list expr :=
  let block := fix block (body : list stmt) : list expr :=
    match body with
    | [] => []
    | s' :: rest => stmt_exprs s' ++ block rest
    end in
  match s with
  | SImport _ | SImportFrom _ _ => []
  | SExpr e | SAssign _ e => [e]
  | SIf t body orelse => t :: block body ++ block orelse
  | SWhile t body => t :: block body
  | SFor _ it body => it :: block body
  | SWith c body => c :: block body
  | STry body handler => block body ++ block handler
  | SFunctionDef _ _ body | SAsyncFunctionDef _ _ body | SClassDef _ body =>
      block body
  end.

Fixpoint imports_of (s : stmt) : list string :=
  let block := fix block (body : list stmt) : list string :=
    match body with
    | [] => []
    | s' :: rest => imports_of s' ++ block rest
    end in
  match s with
  | SImport names => names
  | SImportFrom m _ => [m]
  | SExpr _ | SAssign _ _ => []
  | SIf _ body orelse => block body ++ block orelse
  | STry body handler => block body ++ block handler
  | SWhile _ body | SFor _ _ body | SWith _ body
  | SFunctionDef _ _ body | SAsyncFunctionDef _ _ body | SClassDef _ body =>
      block body
  end.

Definition module_exprs (m : module_body) : list expr :=
  flat_map (fun s => stmt_exprs (node s)) m.

Definition module_imports (m : module_body) : list string :=
  flat_map (fun s => imports_of (node s)) m.

(** The [setup] keywords through which a package declares a command
    line, launcher options or data files. *)
Definition interface_keywords : list string :=
  [ "entry_points"; "options"; "command_options"; "data_files"; "package_data" ].

(** The modules that give a script its arguments, environment, exit
    status, sub-processes and option parser. *)
Definition process_modules : list string :=
  [ "os"; "sys"; "argparse"; "optparse"; "getopt"; "subprocess" ].

Definition mem (x : string) (l : list string) : bool :=
  existsb (String.eqb x) l.

(** ** Dropping imports *)

Definition imports_only (names : list string) (s : stmt) : bool :=
  match s with
  | SImport ns => forallb (fun n => mem n names) ns
  | _ => false
  end.

Definition strip_imports (names : list string) (m : module_body) : module_body :=
  List.filter (fun s => negb (imports_only names (node s))) m.

(** For contrast, a descriptor that does consult its surroundings:

      import os
      from setuptools import setup
      setup(name='bl', version=os.getenv('BL_VERSION'))
*)
Definition getenv_descriptor : module_body :=
  [ Located (SImport ["os"]) 1 1
  ; Located (SImportFrom "setuptools" ["setup"]) 2 2
  ; Located (SExpr (ECall (EName "setup") []
      [ ("name", str "bl")
      ; ("version", ECall (EAttribute (EName "os") "getenv") [str "BL_VERSION"] []) ]))
      3 3 ].

Definition getenv_world (version : string) : World :=
  {| sys_modules :=
       <["os" := {["getenv" := VFunc "os.getenv"]}]>
         {["setuptools" := {["setup" := VFunc setup_qualname]}]};
     extern := fun q _ _ fs =>
       if String.eqb q "os.getenv" then Some (VStr version, fs) else None |}.

(** A second world to run the script in: other module contents, and
    library functions that answer every call and leave a trace of it
    on disk. *)
Definition busy_world : World :=
  {| sys_modules :=
       <["io" := {["StringIO" := VFunc "io.StringIO"]}]>
         (<["re" := {["compile" := VFunc "re.compile"]}]>
            (<["os" := {["getenv" := VFunc "os.getenv"]}]>
               {["setuptools" :=
                   <["find_packages" := VFunc "setuptools.find_packages"]>
                     {["setup" := VFunc setup_qualname]}]}));
     extern := fun q _ _ fs => Some (VStr q, <[q := "called"]> fs) |}.

(** ** Modules a script needs *)

Definition importable (w : World) (m : string) : bool :=
  match sys_modules w !! m with
  | Some _ => true
  | None => false
  end.

(** The first module, in the order given, that the world lacks. *)
Definition first_missing (w : World) (mods : list string) : option string :=
  List.find (fun m => negb (importable w m)) mods.

(** ** Literal expressions

    What can be read off an expression without running anything:
    constants, and lists and dictionaries built from them. *)
Fixpoint literal_eval (e : expr) : option value :=
  match e with
  | EConstant c => Some (const_value c)
  | EList elts =>
      VList <$>
        (fix go (es : list expr) : option (list value) :=
           match es with
           | [] => Some []
           | e' :: es' => v ← literal_eval e'; vs ← go es'; Some (v :: vs)
           end) elts
  | EDict items =>
      VDict <$>
        (fix go (es : list (expr * expr)) : option (list (value * value)) :=
           match es with
           | [] => Some []
           | (k, e') :: es' =>
               kv ← literal_eval k; v ← literal_eval e';
               kvs ← go es'; Some ((kv, v) :: kvs)
           end) items
  | EName _ | EAttribute _ _ | ECall _ _ _ => None
  end.

(** The namespace the three import lines make of [env] when the
    [setup] of [setuptools] is [f]. *)
Definition namespace_after (env : gmap string value) (f : value)
    : gmap string value :=
  <["setup" := f]> (<["re" := VModule "re"]> (<["io" := VModule "io"]> env)).

(** A world with the standard modules and no [setuptools]. *)
Definition bare_world : World :=
  {| sys_modules := <["io" := ∅]> {["re" := ∅]};
     extern := fun _ _ _ _ => None |}.

(** A world whose [setuptools] has no [setup], and one where [setup]
    names something else: a module, or a function of the world that
    writes a file. *)
Definition world_with_setup (f : option value) : World :=
  {| sys_modules :=
       <["io" := ∅]>
         (<["re" := ∅]>
            {["setuptools" :=
                match f with
                | Some v => {["setup" := v]}
                | None => ∅
                end]});
     extern := fun q _ kwargs fs =>
       if String.eqb q "distutils.core.setup"
       then Some (VNone, <["build/log" := q]> fs)
       else None |}.

(** ** Facts *)

Example run_sample : run sample_world setup_py ∅ = Ok ([bl_metadata], ∅).
Proof. vm_compute. reflexivity. Qed.

Lemma sample_world_setuptools : provides_setuptools sample_world.
Proof. eexists. split; vm_compute; reflexivity. Defined.

Lemma sample_world_stdlib : provides_stdlib sample_world.
Proof. split; eexists; vm_compute; reflexivity. Defined.

Lemma busy_world_setuptools : provides_setuptools busy_world.
Proof. eexists. split; vm_compute; reflexivity. Defined.

Lemma busy_world_stdlib : provides_stdlib busy_world.
Proof. split; eexists; vm_compute; reflexivity. Defined.

Example worlds_differ : sample_world <> busy_world.
Proof.
  intros H. apply (f_equal (fun w => extern w "io.open" [] [] ∅)) in H.
  discriminate H.
Qed.

(** ** Stepping lemmas for the evaluator *)

Lemma exec_body_cons (w : World) (s : located) (rest : module_body)
    (env : gmap string value) (st : state) :
  exec_body w (s :: rest) env st =
  match exec w (node s) env st with
  | Ok (env', st') => exec_body w rest env' st'
  | Err e => Err e
  end.
Proof. reflexivity. Qed.

Lemma exec_import_one (w : World) (n : string) (env : gmap string value)
    (st : state) :
  is_Some (sys_modules w !! n) ->
  exec w (SImport [n]) env st = Ok (<[n := VModule n]> env, st).
Proof. intros [a Ha]. simpl. rewrite Ha. reflexivity. Qed.

Lemma exec_import_from_one (w : World) (m n : string) (v : value)
    (attrs : gmap string value) (env : gmap string value) (st : state) :
  sys_modules w !! m = Some attrs -> attrs !! n = Some v ->
  exec w (SImportFrom m [n]) env st = Ok (<[n := v]> env, st).
Proof. intros Hm Hn. simpl. rewrite Hm. simpl. rewrite Hn. reflexivity. Qed.

Lemma run_setup_py (w : World) :
  provides_setuptools w -> provides_stdlib w ->
  declares w setup_py bl_metadata.
Proof.
  intros (attrs & Hst & Hsetup) (Hio & Hre) fs.
  unfold run, setup_py.
  rewrite exec_body_cons. simpl node. rewrite (exec_import_one w "io") by assumption.
  rewrite exec_body_cons. simpl node. rewrite (exec_import_one w "re") by assumption.
  rewrite exec_body_cons. simpl node.
  rewrite (exec_import_from_one w "setuptools" "setup" (VFunc setup_qualname) attrs)
    by assumption.
  vm_compute. reflexivity.
Qed.

(** ** Version order *)

Lemma version_cmp_nil_l (b : list nat) : version_cmp [] b <> Gt.
Proof. simpl. destruct (forallb _ b); discriminate. Qed.

Lemma version_cmp_nil_r (a : list nat) : version_cmp a [] <> Lt.
Proof.
  induction a as [|x a IH]; simpl; [discriminate|].
  destruct x; [exact IH | discriminate].
Qed.

Lemma version_cmp_nil_swap (a : list nat) :
  version_cmp [] a = CompOpp (version_cmp a []).
Proof.
  induction a as [|x a IH]; [reflexivity|].
  destruct x as [|x]; [|reflexivity].
  simpl in *. exact IH.
Qed.

Lemma version_cmp_swap (a b : list nat) :
  version_cmp b a = CompOpp (version_cmp a b).
Proof.
  revert b. induction a as [|x a IH]; intros b.
  - rewrite (version_cmp_nil_swap b), CompOpp_involutive. reflexivity.
  - destruct b as [|y b].
    + apply (version_cmp_nil_swap (x :: a)).
    + simpl. rewrite (Nat.compare_antisym x y).
      destruct (Nat.compare x y); simpl; [apply IH | reflexivity | reflexivity].
Qed.

Lemma version_le_trans (a b c : list nat) :
  version_le a b -> version_le b c -> version_le a c.
Proof.
  unfold version_le. revert b c.
  induction a as [|x a IH]; intros b c Hab Hbc.
  - apply version_cmp_nil_l.
  - destruct b as [|y b], c as [|z c].
    + exact Hab.
    + destruct x as [|x]; [|simpl in Hab; congruence].
      simpl in Hab. simpl. destruct z as [|z]; simpl; [|discriminate].
      apply (IH [] c Hab), version_cmp_nil_l.
    + simpl in Hab, Hbc. simpl.
      destruct y as [|y]; [|congruence].
      destruct x as [|x]; [|simpl in Hab; congruence].
      simpl in Hab. exact (IH b [] Hab Hbc).
    + simpl in *.
      destruct (Nat.compare_spec x y) as [<-|Hxy|Hxy]; [| |congruence].
      * destruct (Nat.compare_spec x z) as [_|_|_]; [|discriminate|congruence].
        exact (IH b c Hab Hbc).
      * destruct (Nat.compare_spec y z) as [<-|Hyz|Hyz]; [| |congruence].
        -- apply Nat.compare_lt_iff in Hxy. rewrite Hxy. discriminate.
        -- assert (Hxz : (x < z)%nat) by lia.
           apply Nat.compare_lt_iff in Hxz. rewrite Hxz. discriminate.
Qed.

(** A minimum clause is met exactly from the minimum upwards. *)
Lemma meets_ge (v b : list nat) : meets v (OpGe, b) = true <-> version_le b v.
Proof.
  unfold meets, version_le. rewrite (version_cmp_swap v b).
  destruct (version_cmp v b); simpl; split; congruence.
Qed.

Lemma satisfies_upward (r : requirement) (v v' : list nat) :
  lower_bound_only r = true ->
  satisfies v r = true -> version_le v v' -> satisfies v' r = true.
Proof.
  unfold lower_bound_only, satisfies.
  destruct (req_clauses r) as [|[[] b] [|]]; try discriminate.
  intros _ Hv Hle. simpl in *.
  rewrite andb_true_r in *.
  apply meets_ge. apply meets_ge in Hv.
  exact (version_le_trans b v v' Hv Hle).
Qed.

(** ** The evaluator on the descriptor *)

Lemma run_stripped (w : World) :
  provides_setuptools w ->
  declares w (strip_imports ["io"; "re"] setup_py) bl_metadata.
Proof.
  intros (attrs & Hst & Hsetup) fs.
  change (strip_imports ["io"; "re"] setup_py)
    with [ Located (SImportFrom "setuptools" ["setup"]) 3 3
         ; Located (SExpr setup_call) 6 19 ].
  unfold run.
  rewrite exec_body_cons. simpl node.
  rewrite (exec_import_from_one w "setuptools" "setup" (VFunc setup_qualname) attrs)
    by assumption.
  vm_compute. reflexivity.
Qed.

(** The text and the tree describe the same file: each statement
    opens the way its first line reads, and the keyword lines of the
    call are the keywords of the tree, in order. *)
Lemma text_agrees_with_tree :
  forallb (opens_as_written setup_py_text) setup_py = true
  /\ map (keywords_in_text setup_py_text) setup_py
     = [ []; []; []; map fst setup_keywords ].
Proof. split; vm_compute; reflexivity. Qed.

(** The contrast case: the same evaluator, run on a descriptor that
    reads the environment, reports what the world answers. *)
Example getenv_descriptor_follows_world :
  run (getenv_world "1.0") getenv_descriptor ∅
    = Ok ([Call [] [("name", VStr "bl"); ("version", VStr "1.0")]], ∅)
  /\ run (getenv_world "2.0") getenv_descriptor ∅
    = Ok ([Call [] [("name", VStr "bl"); ("version", VStr "2.0")]], ∅)
  /\ run busy_world getenv_descriptor ∅
    = Ok ([Call [] [("name", VStr "bl"); ("version", VStr "os.getenv")]],
          {["os.getenv" := "called"]}).
Proof. repeat split; vm_compute; reflexivity. Qed.

(** Running the descriptor creates, changes and removes no file, even
    in a world whose library functions would. *)
Lemma setup_py_leaves_files (w : World) (fs : gmap string string) :
  provides_setuptools w -> provides_stdlib w ->
  exists cs, run w setup_py fs = Ok (cs, fs).
Proof.
  intros Hs Hl. exists [bl_metadata]. exact (run_setup_py w Hs Hl fs).
Qed.

Lemma no_extras_selected (selected : list string) :
  omap (fun e => (∅ : gmap string (list string)) !! e) selected = [].
Proof.
  induction selected as [|e rest IH]; [reflexivity|].
  simpl. rewrite lookup_empty. exact IH.
Qed.

(** ** The claims *)

(** C1: the descriptor declares exactly one installable script, named
    bl.  The [scripts] keyword of the call is the one-element list
    holding "bl"; in every world where the script runs, the metadata it
    records lists that one script, and installation puts the single
    command bl on the path and no other. *)
Theorem scripts_is_bl (w : World) :
  provides_setuptools w -> provides_stdlib w ->
  assoc "scripts" setup_keywords = Some (EList [str "bl"])
  /\ exists c, declares w setup_py c
       /\ scripts c = Some ["bl"]
       /\ entry_point_commands c = Some []
       /\ installed_executables c = Some ["bl"].
Proof.
  intros Hs Hl. split; [reflexivity|].
  exists bl_metadata. split; [exact (run_setup_py w Hs Hl)|].
  repeat split; vm_compute; reflexivity.
Qed.

Lemma scripts_is_bl_witness :
  assoc "scripts" setup_keywords = Some (EList [str "bl"])
  /\ exists c, declares sample_world setup_py c
       /\ scripts c = Some ["bl"]
       /\ entry_point_commands c = Some []
       /\ installed_executables c = Some ["bl"].
Proof.
  apply (scripts_is_bl sample_world).
  - exact sample_world_setuptools.
  - exact sample_world_stdlib.
Defined.

(** C2: the descriptor declares exactly two runtime dependencies and no
    others: [install_requires] is the two-entry list "appdirs>=1.4.4",
    "pexpect>=4.8.0", naming the distributions appdirs and pexpect. *)
Theorem install_requires_is_appdirs_pexpect (w : World) :
  provides_setuptools w -> provides_stdlib w ->
  assoc "install_requires" setup_keywords
    = Some (EList [str "appdirs>=1.4.4"; str "pexpect>=4.8.0"])
  /\ exists c, declares w setup_py c
       /\ install_requires c = Some ["appdirs>=1.4.4"; "pexpect>=4.8.0"]
       /\ length <$> install_requires c = Some 2
       /\ (install_requires c ≫= mapM parse_requirement)
            ≫= (fun rs => Some (map req_name rs))
          = Some ["appdirs"; "pexpect"].
Proof.
  intros Hs Hl. split; [reflexivity|].
  exists bl_metadata. split; [exact (run_setup_py w Hs Hl)|].
  repeat split; vm_compute; reflexivity.
Qed.

Lemma install_requires_is_appdirs_pexpect_witness :
  assoc "install_requires" setup_keywords
    = Some (EList [str "appdirs>=1.4.4"; str "pexpect>=4.8.0"])
  /\ exists c, declares sample_world setup_py c
       /\ install_requires c = Some ["appdirs>=1.4.4"; "pexpect>=4.8.0"]
       /\ length <$> install_requires c = Some 2
       /\ (install_requires c ≫= mapM parse_requirement)
            ≫= (fun rs => Some (map req_name rs))
          = Some ["appdirs"; "pexpect"].
Proof.
  apply (install_requires_is_appdirs_pexpect sample_world).
  - exact sample_world_setuptools.
  - exact sample_world_stdlib.
Defined.

(** C3: the file is packaging metadata and nothing else.  It has
    nineteen lines; each of its statements is an import or the call of
    [setup], of which there is exactly one; no statement defines a
    function, coroutine, class, loop, conditional, handler or binding;
    no line falls outside the imports, the call and the blank lines;
    and wherever the script runs, and on whatever files, what it
    produces is the constant record [bl_metadata], the files untouched. *)
Theorem setup_py_is_pure_metadata :
  length setup_py_text = 19
  /\ Forall (fun s => is_import (node s) || is_setup_call (node s) = true) setup_py
  /\ length (List.filter (fun s => is_setup_call (node s)) setup_py) = 1
  /\ module_constructs setup_py = []
  /\ List.filter is_logic_line (line_kinds setup_py setup_py_text) = []
  /\ line_kinds setup_py setup_py_text
     = repeat ImportLine 3 ++ repeat BlankLine 2 ++ repeat SetupLine 14
  /\ (forall w : World,
        provides_setuptools w -> provides_stdlib w ->
        declares w setup_py bl_metadata).
Proof.
  split; [reflexivity|].
  split; [repeat constructor|].
  split; [reflexivity|].
  split; [reflexivity|].
  split; [vm_compute; reflexivity|].
  split; [vm_compute; reflexivity|].
  exact run_setup_py.
Qed.

Lemma setup_py_is_pure_metadata_witness :
  length setup_py_text = 19
  /\ module_constructs setup_py = []
  /\ declares sample_world setup_py bl_metadata.
Proof.
  destruct setup_py_is_pure_metadata as (Hlen & _ & _ & Hnone & _ & _ & Hrun).
  split; [exact Hlen|]. split; [exact Hnone|].
  apply Hrun.
  - exact sample_world_setuptools.
  - exact sample_world_stdlib.
Defined.

(** C5: the descriptor declares no command-line interface, environment
    variable, exit code or data format.  The call has the nine keywords
    listed and none of [entry_points], [options], [command_options],
    [data_files], [package_data]; the file imports io, re and setuptools
    and none of the modules that reach the process; the only name any
    expression reads is [setup], no attribute is read, and the only
    call is that of [setup]. *)
Theorem no_interface_declared :
  map fst setup_keywords
    = [ "name"; "version"; "include_package_data"; "license"; "author"
      ; "description"; "scripts"; "install_requires"; "extras_require" ]
  /\ Forall (fun k => assoc k setup_keywords = None) interface_keywords
  /\ module_imports setup_py = ["io"; "re"; "setuptools"]
  /\ Forall (fun m => mem m (module_imports setup_py) = false) process_modules
  /\ flat_map names_used (module_exprs setup_py) = ["setup"]
  /\ flat_map attributes_used (module_exprs setup_py) = []
  /\ flat_map callees (module_exprs setup_py) = [EName "setup"].
Proof.
  split; [reflexivity|].
  split; [repeat constructor|].
  split; [reflexivity|].
  split; [repeat constructor|].
  repeat split; reflexivity.
Qed.

(** C7: no optional dependency group is declared.  The [extras_require]
    keyword is the empty dictionary; the recorded metadata maps no group
    name to anything, and whatever groups an installation selects, the
    requirements are those of [install_requires] alone. *)
Theorem extras_require_is_empty (w : World) :
  provides_setuptools w -> provides_stdlib w ->
  assoc "extras_require" setup_keywords = Some (EDict [])
  /\ exists c, declares w setup_py c
       /\ extras_require c = Some ∅
       /\ (forall selected : list string,
             requirements_for selected c = install_requires c)
       /\ (forall selected : list string,
             requirements_for selected c
             = Some ["appdirs>=1.4.4"; "pexpect>=4.8.0"]).
Proof.
  intros Hs Hl. split; [reflexivity|].
  exists bl_metadata. split; [exact (run_setup_py w Hs Hl)|].
  assert (Hreq : forall selected : list string,
            requirements_for selected bl_metadata
            = Some ["appdirs>=1.4.4"; "pexpect>=4.8.0"]).
  { intros selected. unfold requirements_for.
    change (install_requires bl_metadata)
      with (Some ["appdirs>=1.4.4"; "pexpect>=4.8.0"]).
    change (extras_require bl_metadata)
      with (Some (∅ : gmap string (list string))).
    simpl. rewrite no_extras_selected. reflexivity. }
  split; [reflexivity|]. split; [|exact Hreq].
  intros selected. rewrite Hreq. reflexivity.
Qed.

Lemma extras_require_is_empty_witness :
  assoc "extras_require" setup_keywords = Some (EDict [])
  /\ exists c, declares sample_world setup_py c
       /\ extras_require c = Some ∅
       /\ (forall selected : list string,
             requirements_for selected c = install_requires c)
       /\ (forall selected : list string,
             requirements_for selected c
             = Some ["appdirs>=1.4.4"; "pexpect>=4.8.0"]).
Proof.
  apply (extras_require_is_empty sample_world).
  - exact sample_world_setuptools.
  - exact sample_world_stdlib.
Defined.

(** C8: evaluating the descriptor is deterministic and does not depend
    on its imports.  Any two worlds that can run the script (whatever
    their io and re modules hold, whatever their library functions
    answer, whatever files are on disk) get the same metadata from it,
    and each leaves its files as they were; the script without the
    [import io] and [import re] lines produces the same metadata as the
    original; that metadata has name bl, version 1.0 and the declared
    scripts and dependencies; and no expression reads [io] or [re]. *)
Theorem evaluation_ignores_world_and_imports
    (w1 w2 : World) (fs1 fs2 : gmap string string) :
  provides_setuptools w1 -> provides_stdlib w1 ->
  provides_setuptools w2 -> provides_stdlib w2 ->
  metadata w1 setup_py fs1 = metadata w2 setup_py fs2
  /\ run w1 setup_py fs1 = Ok ([bl_metadata], fs1)
  /\ run w2 setup_py fs2 = Ok ([bl_metadata], fs2)
  /\ run w1 (strip_imports ["io"; "re"] setup_py) fs1 = run w1 setup_py fs1
  /\ map node (strip_imports ["io"; "re"] setup_py)
     = [SImportFrom "setuptools" ["setup"]; SExpr setup_call]
  /\ (exists c, declares w1 setup_py c
        /\ kwarg "name" c = Some (VStr "bl")
        /\ kwarg "version" c = Some (VStr "1.0")
        /\ scripts c = Some ["bl"]
        /\ install_requires c = Some ["appdirs>=1.4.4"; "pexpect>=4.8.0"])
  /\ Forall (fun x => mem x ["io"; "re"] = false)
       (flat_map names_used (module_exprs setup_py)).
Proof.
  intros Hs1 Hl1 Hs2 Hl2. unfold metadata.
  rewrite (run_setup_py w1 Hs1 Hl1 fs1), (run_setup_py w2 Hs2 Hl2 fs2).
  rewrite (run_stripped w1 Hs1 fs1).
  do 5 (split; [reflexivity|]).
  split.
  - exists bl_metadata. split; [exact (run_setup_py w1 Hs1 Hl1)|].
    repeat split; reflexivity.
  - repeat constructor.
Qed.

Lemma evaluation_ignores_world_and_imports_witness :
  metadata sample_world setup_py ∅
  = metadata busy_world setup_py {["VERSION" := "9.9"]}
  /\ run sample_world (strip_imports ["io"; "re"] setup_py) ∅
     = run sample_world setup_py ∅.
Proof.
  destruct (evaluation_ignores_world_and_imports sample_world busy_world
              ∅ {["VERSION" := "9.9"]}
              sample_world_setuptools sample_world_stdlib
              busy_world_setuptools busy_world_stdlib)
    as (Hsame & _ & _ & Hstrip & _).
  split; [exact Hsame | exact Hstrip].
Defined.

(** C9: every declared dependency sets a minimum and nothing else.
    Both entries of [install_requires] parse as a name with the single
    clause [>=]: appdirs from 1.4.4, pexpect from 4.8.0.  A version
    satisfies such an entry exactly when it is at or above the minimum,
    so every version above a satisfying one satisfies it too. *)
Theorem requirements_are_lower_bounds (w : World) :
  provides_setuptools w -> provides_stdlib w ->
  exists (c : call) (rs : list requirement),
    declares w setup_py c
    /\ install_requires c ≫= mapM parse_requirement = Some rs
    /\ rs = [ Requirement "appdirs" [(OpGe, [1; 4; 4])]
            ; Requirement "pexpect" [(OpGe, [4; 8; 0])] ]
    /\ forallb lower_bound_only rs = true
    /\ (forall v : list nat,
          satisfies v (Requirement "appdirs" [(OpGe, [1; 4; 4])]) = true
          <-> version_le [1; 4; 4] v)
    /\ (forall v : list nat,
          satisfies v (Requirement "pexpect" [(OpGe, [4; 8; 0])]) = true
          <-> version_le [4; 8; 0] v)
    /\ (forall (r : requirement) (v v' : list nat),
          In r rs -> satisfies v r = true -> version_le v v' ->
          satisfies v' r = true).
Proof.
  intros Hs Hl.
  exists bl_metadata,
    [ Requirement "appdirs" [(OpGe, [1; 4; 4])]
    ; Requirement "pexpect" [(OpGe, [4; 8; 0])] ].
  split; [exact (run_setup_py w Hs Hl)|].
  split; [vm_compute; reflexivity|].
  split; [reflexivity|].
  split; [reflexivity|].
  assert (Hone : forall (n : string) (b v : list nat),
            satisfies v (Requirement n [(OpGe, b)]) = true <-> version_le b v).
  { intros n b v. unfold satisfies, req_clauses, forallb.
    rewrite andb_true_r. apply meets_ge. }
  split; [apply Hone|]. split; [apply Hone|].
  intros r v v' Hin. apply satisfies_upward.
  destruct Hin as [<-|[<-|[]]]; reflexivity.
Qed.

Lemma requirements_are_lower_bounds_witness :
  exists (c : call) (rs : list requirement),
    declares sample_world setup_py c
    /\ install_requires c ≫= mapM parse_requirement = Some rs
    /\ forallb lower_bound_only rs = true
    /\ forallb (satisfies [1; 4; 4; 1]) rs = false
    /\ forallb (satisfies [4; 8]) rs = true
    /\ forallb (satisfies [5]) rs = true.
Proof.
  destruct (requirements_are_lower_bounds sample_world
              sample_world_setuptools sample_world_stdlib)
    as (c & rs & Hrun & Hparse & -> & Hlow & _).
  exists c, [ Requirement "appdirs" [(OpGe, [1; 4; 4])]
            ; Requirement "pexpect" [(OpGe, [4; 8; 0])] ].
  split; [exact Hrun|]. split; [exact Hparse|]. split; [exact Hlow|].
  repeat split; vm_compute; reflexivity.
Defined.

(** ** Failure and composition *)

Lemma exec_import_missing (w : World) (n : string) (env : gmap string value)
    (st : state) :
  sys_modules w !! n = None ->
  exec w (SImport [n]) env st = Err (ModuleNotFoundError n).
Proof. intros Hn. simpl. rewrite Hn. reflexivity. Qed.

Lemma exec_import_from_missing (w : World) (m : string) (names : list string)
    (env : gmap string value) (st : state) :
  sys_modules w !! m = None ->
  exec w (SImportFrom m names) env st = Err (ModuleNotFoundError m).
Proof. intros Hm. simpl. rewrite Hm. reflexivity. Qed.

Lemma importable_true (w : World) (m : string) :
  importable w m = true -> is_Some (sys_modules w !! m).
Proof.
  unfold importable. destruct (sys_modules w !! m) eqn:E; [eauto | discriminate].
Qed.

Lemma importable_false (w : World) (m : string) :
  importable w m = false -> sys_modules w !! m = None.
Proof.
  unfold importable. destruct (sys_modules w !! m) eqn:E; [discriminate | reflexivity].
Qed.

(** X1: a missing module stops the script at its import.  Whichever of
    io, re, setuptools is the first the world lacks, in the order the
    file imports them, running the file raises ModuleNotFoundError for
    that module, on any files, and [setup] is never reached. *)
Theorem first_missing_import_fails
    (w : World) (fs : gmap string string) (m : string) :
  first_missing w (module_imports setup_py) = Some m ->
  run w setup_py fs = Err (ModuleNotFoundError m).
Proof.
  change (module_imports setup_py) with ["io"; "re"; "setuptools"].
  unfold first_missing, run, setup_py. intros H. simpl List.find in H.
  rewrite exec_body_cons. simpl node.
  destruct (importable w "io") eqn:Hio; simpl in H.
  2: { injection H as <-. apply importable_false in Hio.
       rewrite (exec_import_missing w "io") by assumption. reflexivity. }
  apply importable_true in Hio.
  rewrite (exec_import_one w "io") by assumption.
  rewrite exec_body_cons. simpl node.
  destruct (importable w "re") eqn:Hre; simpl in H.
  2: { injection H as <-. apply importable_false in Hre.
       rewrite (exec_import_missing w "re") by assumption. reflexivity. }
  apply importable_true in Hre.
  rewrite (exec_import_one w "re") by assumption.
  rewrite exec_body_cons. simpl node.
  destruct (importable w "setuptools") eqn:Hst; simpl in H; [discriminate|].
  injection H as <-. apply importable_false in Hst.
  rewrite (exec_import_from_missing w "setuptools") by assumption. reflexivity.
Qed.

Lemma first_missing_import_fails_witness :
  run bare_world setup_py ∅ = Err (ModuleNotFoundError "setuptools")
  /\ run (getenv_world "1.0") setup_py ∅ = Err (ModuleNotFoundError "io").
Proof.
  split.
  - apply (first_missing_import_fails bare_world ∅ "setuptools").
    vm_compute. reflexivity.
  - apply (first_missing_import_fails (getenv_world "1.0") ∅ "io").
    vm_compute. reflexivity.
Defined.


(** The call hands the nine keyword values, and no positional
    argument, to whatever [setup] names in the namespace. *)
Lemma eval_setup_call_in (w : World) (env : gmap string value) (f : value)
    (st : state) :
  env !! "setup" = Some f ->
  eval w env setup_call st = apply w f [] (call_kwargs bl_metadata) st.
Proof.
  intros H. unfold setup_call, setup_keywords, str.
  cbn [eval]. unfold mbind, M_bind, bind. rewrite H.
  reflexivity.
Qed.

(** With the three modules there, the import lines extend the
    namespace and leave the state alone; what remains is the call. *)
Lemma exec_body_setup_py (w : World) (attrs : gmap string value)
    (f : value) (env : gmap string value) (st : state) :
  provides_stdlib w ->
  sys_modules w !! "setuptools" = Some attrs -> attrs !! "setup" = Some f ->
  exec_body w setup_py env st
  = match apply w f [] (call_kwargs bl_metadata) st with
    | Ok (_, st') => Ok (namespace_after env f, st')
    | Err e => Err e
    end.
Proof.
  intros (Hio & Hre) Hst Hsetup. unfold setup_py.
  rewrite exec_body_cons. simpl node. rewrite (exec_import_one w "io") by assumption.
  rewrite exec_body_cons. simpl node. rewrite (exec_import_one w "re") by assumption.
  rewrite exec_body_cons. simpl node.
  rewrite (exec_import_from_one w "setuptools" "setup" f attrs) by assumption.
  rewrite exec_body_cons. simpl node.
  fold (namespace_after env f).
  change (exec w (SExpr setup_call) (namespace_after env f) st)
    with (bind (fun _ => ret (namespace_after env f))
               (eval w (namespace_after env f) setup_call) st).
  unfold bind.
  rewrite (eval_setup_call_in w (namespace_after env f) f st)
    by apply lookup_insert_eq.
  destruct (apply w f [] (call_kwargs bl_metadata) st) as [[v st']|e]; reflexivity.
Qed.




(** X3: the whole script is one application.  Whatever value [f] the
    name [setup] of [setuptools] holds, running the file applies [f]
    once to no positional argument and the nine keyword values of the
    call, in the order written, discards the result, and ends with the
    log and the files that application left. *)
Theorem setup_py_applies_setup_once
    (w : World) (attrs : gmap string value) (f : value)
    (fs : gmap string string) :
  provides_stdlib w ->
  sys_modules w !! "setuptools" = Some attrs -> attrs !! "setup" = Some f ->
  run w setup_py fs
  = match apply w f [] (call_kwargs bl_metadata) (State [] fs) with
    | Ok (_, st) => Ok (calls st, files st)
    | Err e => Err e
    end.
Proof.
  intros Hl Hst Hsetup. unfold run.
  rewrite (exec_body_setup_py w attrs f ∅ (State [] fs) Hl Hst Hsetup).
  destruct (apply w f [] (call_kwargs bl_metadata) (State [] fs)) as [[v st]|e];
    reflexivity.
Qed.

Lemma setup_py_applies_setup_once_witness :
  run sample_world setup_py ∅
  = match apply sample_world (VFunc setup_qualname) []
            (call_kwargs bl_metadata) (State [] ∅) with
    | Ok (_, st) => Ok (calls st, files st)
    | Err e => Err e
    end.
Proof.
  apply (setup_py_applies_setup_once sample_world
           {["setup" := VFunc setup_qualname]}).
  - exact sample_world_stdlib.
  - vm_compute. reflexivity.
  - vm_compute. reflexivity.
Defined.

(** X4: when [setup] names some other function of the world, that
    function receives the metadata: it is called once with no
    positional argument and the nine keywords, the script records no
    call of its own, and the files are what the function left; if the
    function rejects the call the script stops with TypeError. *)
Theorem foreign_setup_receives_metadata
    (w : World) (attrs : gmap string value) (q : string)
    (fs : gmap string string) :
  provides_stdlib w ->
  sys_modules w !! "setuptools" = Some attrs ->
  attrs !! "setup" = Some (VFunc q) ->
  q <> setup_qualname ->
  run w setup_py fs
  = match extern w q [] (call_kwargs bl_metadata) fs with
    | Some (_, fs') => Ok ([], fs')
    | None => Err TypeError
    end.
Proof.
  intros Hl Hst Hsetup Hq. unfold run.
  rewrite (exec_body_setup_py w attrs (VFunc q) ∅ (State [] fs) Hl Hst Hsetup).
  unfold apply. apply String.eqb_neq in Hq. rewrite Hq. cbn [files calls].
  destruct (extern w q [] (call_kwargs bl_metadata) fs) as [[v fs']|];
    reflexivity.
Qed.

Lemma foreign_setup_receives_metadata_witness :
  run (world_with_setup (Some (VFunc "distutils.core.setup"))) setup_py ∅
  = Ok ([], {["build/log" := "distutils.core.setup"]}).
Proof.
  rewrite (foreign_setup_receives_metadata
             (world_with_setup (Some (VFunc "distutils.core.setup")))
             {["setup" := VFunc "distutils.core.setup"]}
             "distutils.core.setup" ∅).
  - vm_compute. reflexivity.
  - split; eexists; vm_compute; reflexivity.
  - vm_compute. reflexivity.
  - vm_compute. reflexivity.
  - discriminate.
Defined.









(** Induction on expressions that reaches the operands held in lists. *)
Lemma expr_nested_ind (P : expr -> Prop) :
  (forall c, P (EConstant c)) ->
  (forall id, P (EName id)) ->
  (forall e attr, P e -> P (EAttribute e attr)) ->
  (forall elts, Forall P elts -> P (EList elts)) ->
  (forall items, Forall (fun kv => P (fst kv) /\ P (snd kv)) items ->
                 P (EDict items)) ->
  (forall f args kws, P f -> Forall P args ->
                      Forall (fun kv => P (snd kv)) kws -> P (ECall f args kws)) ->
  forall e, P e.
Proof.
  intros Hc Hn Ha Hl Hd Hcall.
  fix IH 1. intros [c|id|e attr|elts|items|f args kws].
  - apply Hc.
  - apply Hn.
  - apply Ha, IH.
  - apply Hl. induction elts as [|e es IHes]; constructor; [apply IH | exact IHes].
  - apply Hd. induction items as [|[k v] es IHes]; constructor;
      [split; apply IH | exact IHes].
  - apply Hcall.
    + apply IH.
    + induction args as [|e es IHes]; constructor; [apply IH | exact IHes].
    + induction kws as [|[k v] es IHes]; constructor; [apply IH | exact IHes].
Qed.

(** A literal evaluates to its value in every world and namespace,
    and evaluating it changes nothing. *)
Lemma literal_eval_sound (e : expr) :
  forall (v : value), literal_eval e = Some v ->
  forall (w : World) (env : gmap string value) (st : state),
    eval w env e st = Ok (v, st).
Proof.
  induction e as [c|id|e attr IH|elts IH|items IH|f args kws _ _ _]
    using expr_nested_ind; intros v Hlit w env st; try discriminate.
  - injection Hlit as <-. reflexivity.
  - simpl in Hlit. simpl.
    match type of Hlit with VList <$> ?g elts = _ =>
      destruct (g elts) as [vs|] eqn:Hgo; [|discriminate] end.
    injection Hlit as <-.
    unfold mbind, M_bind, bind.
    match goal with |- match ?g elts st with _ => _ end = _ =>
      assert (Hvs : g elts st = Ok (vs, st)) end.
    { clear -IH Hgo. revert vs Hgo.
      induction IH as [|e es He _ IHes]; intros vs Hgo.
      - injection Hgo as <-. reflexivity.
      - destruct (literal_eval e) as [v|] eqn:Hv; [|discriminate].
        simpl in Hgo.
        match type of Hgo with context [?g es] =>
          destruct (g es) as [vs'|] eqn:Hgo'; [|discriminate] end.
        injection Hgo as <-.
        unfold mbind, M_bind, bind.
        rewrite (He v eq_refl w env st), (IHes vs' eq_refl). reflexivity. }
    rewrite Hvs. reflexivity.
  - simpl in Hlit. simpl.
    match type of Hlit with VDict <$> ?g items = _ =>
      destruct (g items) as [vs|] eqn:Hgo; [|discriminate] end.
    injection Hlit as <-.
    unfold mbind, M_bind, bind.
    match goal with |- match ?g items st with _ => _ end = _ =>
      assert (Hvs : g items st = Ok (vs, st)) end.
    { clear -IH Hgo. revert vs Hgo.
      induction IH as [|[k e] es [Hk He] _ IHes]; intros vs Hgo.
      - injection Hgo as <-. reflexivity.
      - simpl in Hk, He.
        destruct (literal_eval k) as [kv|] eqn:Hkv; [|discriminate].
        simpl in Hgo.
        destruct (literal_eval e) as [v|] eqn:Hv; [|discriminate].
        simpl in Hgo.
        match type of Hgo with context [?g es] =>
          destruct (g es) as [vs'|] eqn:Hgo'; [|discriminate] end.
        injection Hgo as <-.
        unfold mbind, M_bind, bind.
        rewrite (Hk kv eq_refl w env st), (He v eq_refl w env st),
                (IHes vs' eq_refl).
        reflexivity. }
    rewrite Hvs. reflexivity.
Qed.

(** X8: the metadata can be read without running anything.  Every
    keyword value of the call is a literal; its literal value is the one
    the metadata records under that keyword, and evaluating it gives
    that value in every world, namespace and state, changing nothing. *)
Theorem keyword_values_are_literals (k : string) (e : expr) :
  In (k, e) setup_keywords ->
  exists v : value,
    literal_eval e = Some v
    /\ kwarg k bl_metadata = Some v
    /\ forall (w : World) (env : gmap string value) (st : state),
         eval w env e st = Ok (v, st).
Proof.
  intros Hin.
  assert (Hlit : exists v, literal_eval e = Some v /\ kwarg k bl_metadata = Some v).
  { unfold setup_keywords in Hin. simpl in Hin.
    repeat (destruct Hin as [Heq|Hin];
            [injection Heq as <- <-; eexists; split; reflexivity|]).
    destruct Hin. }
  destruct Hlit as (v & Hv & Hk).
  exists v. split; [exact Hv|]. split; [exact Hk|].
  exact (literal_eval_sound e v Hv).
Qed.

Lemma keyword_values_are_literals_witness :
  exists v : value,
    literal_eval (EList [str "appdirs>=1.4.4"; str "pexpect>=4.8.0"]) = Some v
    /\ kwarg "install_requires" bl_metadata = Some v
    /\ forall (w : World) (env : gmap string value) (st : state),
         eval w env (EList [str "appdirs>=1.4.4"; str "pexpect>=4.8.0"]) st
         = Ok (v, st).
Proof.
  apply (keyword_values_are_literals "install_requires").
  unfold setup_keywords. simpl. do 7 right. left. reflexivity.
Defined.
